(** * Certificate bootstrap of the pilot discovery server

    A shallow embedding of [pilot/pkg/bootstrap/certcontroller.go]:
    [initCertController], which turns the mesh configuration's certificate
    list into the three parallel request slices handed to chiron's webhook
    controller, and [initDNSCerts], which provisions Istiod's own DNS
    certificate and stores it on disk.

    Both functions are methods of [*Server] that talk to the outside world
    (the file system, the Kubernetes signing API, chiron).  They are
    embedded in a small state monad over the server, an abstract world and
    the chronological list of external calls; what each external call
    answers is left to an environment record, so that every theorem holds
    whatever the file system and the signing backend do.  Calls to the
    logger are not modelled. *)

From Stdlib Require Import ZArith QArith Ascii String List Bool Lia.
From stdpp Require Import base option list strings gmap.

Open Scope string_scope.
Open Scope Z_scope.

(** ** Go values *)

(** A Go [error] is represented by its message; [nil] is [None]. *)
Definition error := string.

(** [[]byte] *)
Definition bytes := list Byte.byte.

(** ** The parts of Go's [strings] and [path] packages the file uses *)

(** [strings.Join(elems, sep)] *)
Fixpoint strings_Join (elems : list string) (sep : string) : string :=
  match elems with
  | [] => ""
  | [e] => e
  | e :: rest => e +:+ sep +:+ strings_Join rest sep
  end.

(** [strings.Split(s, sep)] for a separator of one byte, which is how the
    file calls it: the pieces of [s] between the occurrences of [sep], in
    order; a string without [sep] is its own single piece. *)
Fixpoint strings_Split (s : string) (sep : ascii) : list string :=
  match s with
  | EmptyString => [""]
  | String c s' =>
      if Ascii.eqb c sep then "" :: strings_Split s' sep
      else match strings_Split s' sep with
           | p :: ps => String c p :: ps
           | [] => [String c ""]
           end
  end.

(** One element of a path pushed on the (reversed) output of [path.Clean]. *)
Definition clean_step (rooted : bool) (out : list string) (elem : string)
  : list string :=
  if String.eqb elem "" then out
  else if String.eqb elem "." then out
  else if String.eqb elem ".." then
    match out with
    | top :: out' => if String.eqb top ".." then elem :: out else out'
    | [] => if rooted then out else [elem]
    end
  else elem :: out.

(** [path.Clean(p)]: empty and [.] elements are dropped, an inner [..]
    removes the element before it, a [..] at the root of a rooted path is
    dropped, and the empty result is [.]. *)
Definition path_Clean (p : string) : string :=
  let rooted := String.prefix "/" p in
  let out := fold_left (clean_step rooted) (strings_Split p "/") [] in
  let body := strings_Join (rev out) "/" in
  if rooted then "/" +:+ body
  else if String.eqb body "" then "." else body.

(** [path.Join(elem...)]: empty elements are ignored, the rest is joined
    with slashes and cleaned; no element at all gives the empty string. *)
Definition path_Join (elem : list string) : string :=
  match filter (fun e => e ≠ "") elem with
  | [] => ""
  | es => path_Clean (strings_Join es "/")
  end.

(** ** Constants and package variables *)

(** [defaultCertGracePeriodRatio = 0.5] *)
Definition defaultCertGracePeriodRatio : Q := 1 # 2.

(** [time.Duration] counts nanoseconds. *)
Definition time_Nanosecond : Z := 1.
Definition time_Second : Z := 1000000000 * time_Nanosecond.
Definition time_Minute : Z := 60 * time_Second.

(** [defaultMinCertGracePeriod = 10 * time.Minute] *)
Definition defaultMinCertGracePeriod : Z := 10 * time_Minute.

Definition defaultCACertPath : string :=
  "/var/run/secrets/kubernetes.io/serviceaccount/ca.crt".

Definition dnsCertDir : string := "./var/run/secrets/istio-dns".
Definition dnsKeyFile : string := path_Join [dnsCertDir; "key.pem"].
Definition dnsCertFile : string := path_Join [dnsCertDir; "cert-chain.pem"].

(** An octal literal, most significant digit first: [0600] is
    [octal [6; 0; 0]]. *)
Definition octal (digits : list Z) : Z :=
  fold_left (fun acc d => 8 * acc + d) digits 0.

(** The permission bits of the owner, as in [os.FileMode]. *)
Definition S_IRUSR : Z := octal [4; 0; 0].
Definition S_IWUSR : Z := octal [2; 0; 0].
Definition S_IXUSR : Z := octal [1; 0; 0].

(** ** Data model *)

(** An entry of the mesh configuration's [certificates] list. *)
Record Certificate := {
  SecretName : string;
  DnsNames : list string
}.

Record MeshConfig := { Certificates : list Certificate }.

Record Environment := { Mesh : MeshConfig }.

Record PilotArgs := { Namespace : string }.

(** The closures handed to [addStartFunc].  The file registers only one:
    the one that, once started, runs the certificate controller in a
    goroutine until the stop channel closes. *)
Inductive startFunc := RunCertController.

(** One call that left the process, with its arguments and what it
    answered: the error and, for the signing call, the certificate chain
    and the key. *)
Inductive event :=
| Ev_Stat (name : string) (err : option error)
| Ev_GenKeyCertK8sCA (dnsNames secretName secretNamespace caFilePath : string)
    (certChain keyPEM : bytes) (err : option error)
| Ev_MkdirAll (path : string) (perm : Z) (err : option error)
| Ev_WriteFile (filename : string) (data : bytes) (perm : Z)
    (err : option error)
| Ev_NewWebhookController (gracePeriodRatio : Q) (minGracePeriod : Z)
    (caCertPath : string) (secretNames dnsNames namespaces : list string)
    (err : option error).

Definition is_signing (e : event) : bool :=
  match e with Ev_GenKeyCertK8sCA _ _ _ _ _ _ _ => true | _ => false end.

Definition is_write (e : event) : bool :=
  match e with
  | Ev_MkdirAll _ _ _ | Ev_WriteFile _ _ _ _ => true
  | _ => false
  end.

Definition is_construction (e : event) : bool :=
  match e with Ev_NewWebhookController _ _ _ _ _ _ _ => true | _ => false end.

(** What a function call yields: a value, or a run-time panic. *)
Inductive outcome (A : Type) :=
| Val (a : A)
| Panic (msg : string).
Arguments Val {A} a.
Arguments Panic {A} msg.

(** Modelled from the spec: the [Server] struct is declared in another file
    of the package; these are the fields the two methods read or write:
    the mesh environment, the Kubernetes client handle, the rotation
    controller once constructed, and the startup hooks registered so far. *)
Record Server (Client Ctl : Type) := {
  environment : Environment;
  kubeClient : Client;
  certController : option Ctl;
  startFuncs : list startFunc
}.
Arguments environment {Client Ctl} _.
Arguments kubeClient {Client Ctl} _.
Arguments certController {Client Ctl} _.
Arguments startFuncs {Client Ctl} _.

(** The collaborators, as functions of an abstract world [W]: the three
    file-system calls, chiron's one-shot signing
    ([GenKeyCertK8sCA] answers certificate chain, key, CA certificate and
    error) and chiron's controller constructor.  The client handles the
    source derives from [s.kubeClient] are passed as the client itself. *)
Record Env (W Client Ctl : Type) := {
  os_Stat : string -> W -> option error * W;
  os_MkdirAll : string -> Z -> W -> option error * W;
  ioutil_WriteFile : string -> bytes -> Z -> W -> option error * W;
  chiron_GenKeyCertK8sCA :
    Client -> string -> string -> string -> string ->
    W -> (bytes * bytes * bytes * option error) * W;
  chiron_NewWebhookController :
    Q -> Z -> Client -> string -> list string -> list string -> list string ->
    W -> (option Ctl * option error) * W
}.
Arguments os_Stat {W Client Ctl} _ _ _.
Arguments os_MkdirAll {W Client Ctl} _ _ _ _.
Arguments ioutil_WriteFile {W Client Ctl} _ _ _ _ _.
Arguments chiron_GenKeyCertK8sCA {W Client Ctl} _ _ _ _ _ _ _.
Arguments chiron_NewWebhookController {W Client Ctl} _ _ _ _ _ _ _ _ _.

(** The state a method runs in: its receiver, the world, and the external
    calls made so far, oldest first. *)
Record State (W Client Ctl : Type) := {
  server : Server Client Ctl;
  world : W;
  trace : list event
}.
Arguments server {W Client Ctl} _.
Arguments world {W Client Ctl} _.
Arguments trace {W Client Ctl} _.

(** ** The extraction loop of [initCertController] *)

(** The slices [secretNames], [dnsNames] and [namespaces]. *)
Definition requests : Type := list string * list string * list string.

(** The body of the loop over the certificate configurations. *)
Definition collect (args : PilotArgs) (acc : requests) (c : Certificate)
  : requests :=
  let '(secretNames, dnsNames, namespaces) := acc in
  let name := strings_Join (DnsNames c) "," in
  if (String.length name =? 0)%nat then acc
  else if (0 <? String.length (SecretName c))%nat then
    ((secretNames ++ [SecretName c])%list, (dnsNames ++ [name])%list,
     (namespaces ++ [Namespace args])%list)
  else acc.

(** The three slices after the loop. *)
Definition extract (args : PilotArgs) (certs : list Certificate) : requests :=
  fold_left (collect args) certs ([], [], []).

(** ** The name list of [initDNSCerts] *)

(** The value of [names] once both migration tests have run. *)
Definition dnsCertNames (hostname : string) : list string :=
  let names := [hostname] in
  let names :=
    if String.eqb hostname "istio-pilot.istio-system.svc"
    then (names ++ ["istiod.istio-system.svc"])%list else names in
  let names :=
    if String.eqb hostname "istiod.istio-system.svc"
    then (names ++ ["istio-pilot.istio-system.svc"])%list else names in
  names.

(** The error of the hostname check. *)
Definition invalidHostname (hostname : string) : error :=
  "invalid hostname " +:+ hostname +:+
  ", should contain at least service name and namespace".

(** ** The two methods *)

Section Bootstrap.
Context {W Client Ctl : Type}.
Variable env : Env W Client Ctl.

Definition Sys (A : Type) : Type :=
  State W Client Ctl -> outcome A * State W Client Ctl.

Definition ret {A} (a : A) : Sys A := fun st => (Val a, st).

Definition bind {A B} (m : Sys A) (k : A -> Sys B) : Sys B :=
  fun st =>
    match m st with
    | (Val a, st') => k a st'
    | (Panic msg, st') => (Panic msg, st')
    end.

Notation "'let*' x ':=' m 'in' k" := (bind m (fun x => k))
  (at level 10, x name, m at level 100, k at level 200).
Notation "'let*' ' p ':=' m 'in' k" := (bind m (fun x => let 'p := x in k))
  (at level 10, p pattern, m at level 100, k at level 200).
Notation "'exec' m 'in' k" := (bind m (fun _ => k))
  (at level 10, m at level 100, k at level 200).

(** The receiver [s]. *)
Definition self : Sys (Server Client Ctl) := fun st => (Val (server st), st).

(** An external call: the world moves on and the call is recorded. *)
Definition extern {A} (f : W -> A * W) (ev : A -> event) : Sys A :=
  fun st =>
    let (a, w) := f (world st) in
    (Val a, {| server := server st; world := w;
               trace := (trace st ++ [ev a])%list |}).

(** [l[i]], which panics out of range. *)
Definition index (l : list string) (i : nat) : Sys string :=
  fun st =>
    match l !! i with
    | Some x => (Val x, st)
    | None => (Panic "index out of range", st)
    end.

(** [s.certController = c] *)
Definition set_certController (c : option Ctl) : Sys unit :=
  fun st =>
    (Val tt,
     {| server := {| environment := environment (server st);
                     kubeClient := kubeClient (server st);
                     certController := c;
                     startFuncs := startFuncs (server st) |};
        world := world st; trace := trace st |}).

(** Modelled from the spec: [addStartFunc] is defined in another file of
    the package; it registers a startup hook, after those already
    registered. *)
Definition addStartFunc (fn : startFunc) : Sys unit :=
  fun st =>
    (Val tt,
     {| server := {| environment := environment (server st);
                     kubeClient := kubeClient (server st);
                     certController := certController (server st);
                     startFuncs := (startFuncs (server st) ++ [fn])%list |};
        world := world st; trace := trace st |}).

(** [func (s *Server) initCertController(args *PilotArgs) error]: returns
    at once without certificate configuration; otherwise extracts the
    request slices, constructs chiron's webhook controller on them with
    the default rotation policy and registers the hook that runs it. *)
Definition initCertController (args : PilotArgs) : Sys (option error) :=
  let* s := self in
  let meshConfig := Mesh (environment s) in
  if (length (Certificates meshConfig) =? 0)%nat then ret None
  else
    let k8sClient := kubeClient s in
    let '(secretNames, dnsNames, namespaces) :=
      extract args (Certificates meshConfig) in
    let* '(ctl, err) :=
      extern (chiron_NewWebhookController env defaultCertGracePeriodRatio
                defaultMinCertGracePeriod k8sClient defaultCACertPath
                secretNames dnsNames namespaces)
             (fun r => Ev_NewWebhookController defaultCertGracePeriodRatio
                defaultMinCertGracePeriod defaultCACertPath
                secretNames dnsNames namespaces (snd r)) in
    exec set_certController ctl in
    match err with
    | Some e =>
        ret (Some ("failed to create certificate controller: " +:+ e))
    | None =>
        exec addStartFunc RunCertController in
        ret None
    end.

(** [func (s *Server) initDNSCerts(hostname string) error]: nothing to do
    when a key file is already there; otherwise checks the hostname, has
    a certificate for its names signed and writes key and chain under
    [dnsCertDir]. *)
Definition initDNSCerts (hostname : string) : Sys (option error) :=
  let* s := self in
  let* err := extern (os_Stat env dnsKeyFile) (Ev_Stat dnsKeyFile) in
  match err with
  | None => ret None
  | Some _ =>
      let parts := strings_Split hostname "." in
      if (length parts <? 2)%nat then ret (Some (invalidHostname hostname))
      else
        let names := dnsCertNames hostname in
        let* part0 := index parts 0 in
        let* part1 := index parts 1 in
        let* '(certChain, keyPEM, _, err) :=
          extern (chiron_GenKeyCertK8sCA env (kubeClient s)
                    (strings_Join names ",") (part0 +:+ ".csr.secret")
                    part1 defaultCACertPath)
                 (fun r => Ev_GenKeyCertK8sCA (strings_Join names ",")
                    (part0 +:+ ".csr.secret") part1 defaultCACertPath
                    (fst (fst (fst r))) (snd (fst (fst r))) (snd r)) in
        match err with
        | Some e => ret (Some e)
        | None =>
            let* err := extern (os_MkdirAll env dnsCertDir (octal [6; 0; 0]))
                          (Ev_MkdirAll dnsCertDir (octal [6; 0; 0])) in
            match err with
            | Some e => ret (Some e)
            | None =>
                let* err := extern (ioutil_WriteFile env dnsKeyFile keyPEM
                                 (octal [6; 0; 0]))
                              (Ev_WriteFile dnsKeyFile keyPEM
                                 (octal [6; 0; 0])) in
                match err with
                | Some e => ret (Some e)
                | None =>
                    let* err := extern (ioutil_WriteFile env dnsCertFile
                                     certChain (octal [6; 0; 0]))
                                  (Ev_WriteFile dnsCertFile certChain
                                     (octal [6; 0; 0])) in
                    match err with
                    | Some e => ret (Some e)
                    | None => ret None
                    end
                end
            end
        end
  end.

End Bootstrap.

Arguments ret {W Client Ctl A} a st /.
Arguments bind {W Client Ctl A B} m k st /.
Arguments self {W Client Ctl} st /.
Arguments extern {W Client Ctl A} f ev st /.
Arguments index {W Client Ctl} l i st /.
Arguments set_certController {W Client Ctl} c st /.
Arguments addStartFunc {W Client Ctl} fn st /.

(** The external calls a method makes when run from [st], oldest first. *)
Definition calls {W Client Ctl A}
    (m : State W Client Ctl -> outcome A * State W Client Ctl)
    (st : State W Client Ctl) : list event :=
  drop (length (trace st)) (trace (snd (m st))).

(** ** An in-memory world

    A file system as a finite map from cleaned paths to nodes, a set of
    paths that refuse writes, and the answers of chiron.  It stands for the
    outside world wherever a concrete run is needed. *)

Inductive node :=
| File (perm : Z) (data : bytes)
| Dir (perm : Z).

Record Mem := {
  files : gmap string node;
  denied : gset string;
  signer : string -> string -> string -> bytes * bytes * bytes * option error;
  rejects : option error
}.

Definition mem_Stat (name : string) (w : Mem) : option error * Mem :=
  match files w !! name with
  | Some _ => (None, w)
  | None => (Some ("stat " +:+ name +:+ ": no such file or directory"), w)
  end.

Definition mem_put (name : string) (n : node) (w : Mem) : Mem :=
  {| files := <[name := n]> (files w); denied := denied w;
     signer := signer w; rejects := rejects w |}.

Definition mem_MkdirAll (path : string) (perm : Z) (w : Mem)
  : option error * Mem :=
  if decide (path ∈ denied w)
  then (Some ("mkdir " +:+ path +:+ ": permission denied"), w)
  else match files w !! path with
       | Some (Dir _) => (None, w)
       | Some (File _ _) =>
           (Some ("mkdir " +:+ path +:+ ": not a directory"), w)
       | None => (None, mem_put path (Dir perm) w)
       end.

Definition mem_WriteFile (filename : string) (data : bytes) (perm : Z)
    (w : Mem) : option error * Mem :=
  if decide (filename ∈ denied w)
  then (Some ("open " +:+ filename +:+ ": permission denied"), w)
  else match files w !! filename with
       | Some (Dir _) =>
           (Some ("open " +:+ filename +:+ ": is a directory"), w)
       | Some (File p _) => (None, mem_put filename (File p data) w)
       | None => (None, mem_put filename (File perm data) w)
       end.

Definition memEnv : Env Mem unit unit := {|
  os_Stat := mem_Stat;
  os_MkdirAll := mem_MkdirAll;
  ioutil_WriteFile := mem_WriteFile;
  chiron_GenKeyCertK8sCA := fun _ dnsNames secretName secretNamespace _ w =>
    (signer w dnsNames secretName secretNamespace, w);
  chiron_NewWebhookController := fun _ _ _ _ _ _ _ w =>
    match rejects w with
    | Some e => ((None, Some e), w)
    | None => ((Some tt, None), w)
    end
|}.

Definition pem (s : string) : bytes := list_byte_of_string s.

(** A signing backend that always issues the same pair. *)
Definition signs (_ _ _ : string) : bytes * bytes * bytes * option error :=
  (pem "CHAIN", pem "KEY", pem "CA", None).

(** An empty disk, a disk that already holds a mounted key, and a disk on
    which the certificate chain cannot be written. *)
Definition emptyDisk : Mem :=
  {| files := ∅; denied := ∅; signer := signs; rejects := None |}.

Definition mountedDisk : Mem :=
  mem_put dnsKeyFile (File (octal [4; 4; 4]) (pem "MOUNTED")) emptyDisk.

Definition chainDeniedDisk : Mem :=
  {| files := ∅; denied := {[ dnsCertFile ]}; signer := signs;
     rejects := None |}.

(** A server before either method ran. *)
Definition newServer (certs : list Certificate) : Server unit unit :=
  {| environment := {| Mesh := {| Certificates := certs |} |};
     kubeClient := tt; certController := None; startFuncs := [] |}.

Definition boot (certs : list Certificate) (w : Mem) : State Mem unit unit :=
  {| server := newServer certs; world := w; trace := [] |}.

Definition emptyBoot : State Mem unit unit := boot [] emptyDisk.
Definition mountedBoot : State Mem unit unit := boot [] mountedDisk.
Definition chainDeniedBoot : State Mem unit unit := boot [] chainDeniedDisk.

(** The errors the in-memory world answers on these disks. *)
Definition noKeyFile : error :=
  "stat " +:+ dnsKeyFile +:+ ": no such file or directory".
Definition chainDenied : error :=
  "open " +:+ dnsCertFile +:+ ": permission denied".

(** The configurations of the design's examples. *)
Definition unmanagedOnly : list Certificate :=
  [ {| SecretName := ""; DnsNames := ["svc.c"] |} ].
Definition managedAndNot : list Certificate :=
  [ {| SecretName := "cert-a"; DnsNames := ["svc.a"] |};
    {| SecretName := "cert-b"; DnsNames := [] |} ].

(** A world whose signing backend refuses, and disks on which the
    certificate directory cannot be made or the key file not be written. *)
Definition refuses (_ _ _ : string) : bytes * bytes * bytes * option error :=
  ([], [], [], Some "certificate signing request denied").

Definition refusingBoot : State Mem unit unit :=
  boot [] {| files := ∅; denied := ∅; signer := refuses; rejects := None |}.

Definition dirDeniedBoot : State Mem unit unit :=
  boot [] {| files := ∅; denied := {[ dnsCertDir ]}; signer := signs;
             rejects := None |}.

Definition keyDeniedBoot : State Mem unit unit :=
  boot [] {| files := ∅; denied := {[ dnsKeyFile ]}; signer := signs;
             rejects := None |}.

(** ** Notions used to state the properties *)

(** The occurrences of a byte in a string. *)
Fixpoint occurrences (sep : ascii) (s : string) : nat :=
  match s with
  | EmptyString => 0
  | String c s' => (if Ascii.eqb c sep then 1 else 0) + occurrences sep s'
  end.

(** The request set as the design describes it: one request per
    configuration that has a non-empty joined DNS name and a non-empty
    secret name, in the order of the input, in the caller's namespace. *)
Record CertificateRequest := {
  req_secretName : string;
  req_dnsNames : string;
  req_namespace : string
}.

Definition joinedNames (c : Certificate) : string :=
  strings_Join (DnsNames c) ",".

Definition managed (c : Certificate) : bool :=
  negb (String.eqb (joinedNames c) "") && negb (String.eqb (SecretName c) "").

Definition request_of (namespace : string) (c : Certificate)
  : CertificateRequest :=
  {| req_secretName := SecretName c;
     req_dnsNames := joinedNames c;
     req_namespace := namespace |}.

Definition extraction_spec (namespace : string) (certs : list Certificate)
  : list CertificateRequest :=
  map (request_of namespace) (List.filter managed certs).

(** [0600]: read and write for the owner. *)
Definition ownerReadWrite : Z := Z.lor S_IRUSR S_IWUSR.

Definition quiet (e : event) : Prop :=
  is_signing e = false ∧ is_write e = false.

(** The calls [initDNSCerts] is meant to make: the look-up of the key
    file, a signing request checked against the default CA certificate,
    and the making of the certificate directory and the writes of the two
    files in it, with mode [0600]. *)
Definition confined (e : event) : Prop :=
  match e with
  | Ev_Stat name _ => name = dnsKeyFile
  | Ev_GenKeyCertK8sCA _ _ _ caFilePath _ _ _ => caFilePath = defaultCACertPath
  | Ev_MkdirAll path perm _ => path = dnsCertDir ∧ perm = ownerReadWrite
  | Ev_WriteFile filename _ perm _ =>
      (filename = dnsKeyFile ∨ filename = dnsCertFile) ∧ perm = ownerReadWrite
  | Ev_NewWebhookController _ _ _ _ _ _ _ => False
  end.

Definition is_file_write (e : event) : bool :=
  match e with Ev_WriteFile _ _ _ _ => true | _ => false end.

(** [os.Stat] finds [name] in the world [w]. *)
Definition found {W Client Ctl} (env : Env W Client Ctl) (name : string)
    (w : W) : Prop :=
  fst (os_Stat env name w) = None.

(** * Properties *)

(** ** Strings *)

Lemma strings_Split_nonempty (s : string) (sep : ascii) :
  strings_Split s sep ≠ [].
Proof.
  destruct s as [|c s]; cbn [strings_Split]; [discriminate|].
  destruct (Ascii.eqb c sep); [discriminate|].
  destruct (strings_Split s sep); discriminate.
Qed.

(** A string has one piece more than it has separators. *)
Lemma strings_Split_length (s : string) (sep : ascii) :
  length (strings_Split s sep) = S (occurrences sep s).
Proof.
  induction s as [|c s IH]; [reflexivity|].
  cbn [strings_Split occurrences].
  destruct (Ascii.eqb c sep).
  - cbn [length]. rewrite IH. reflexivity.
  - pose proof (strings_Split_nonempty s sep) as Hne.
    destruct (strings_Split s sep) as [|p ps]; [congruence|].
    cbn [length] in *. rewrite IH. reflexivity.
Qed.

(** A piece ahead of a separator is split off as it is. *)
Lemma strings_Split_cons (a rest : string) (sep : ascii) :
  occurrences sep a = 0%nat →
  strings_Split (a +:+ String sep rest) sep = a :: strings_Split rest sep.
Proof.
  induction a as [|c a IH]; intros Hocc.
  - change ("" +:+ String sep rest) with (String sep rest).
    cbn [strings_Split]. rewrite Ascii.eqb_refl. reflexivity.
  - cbn [occurrences] in Hocc.
    change (String c a +:+ String sep rest)
      with (String c (a +:+ String sep rest)).
    cbn [strings_Split].
    destruct (Ascii.eqb c sep); [discriminate|].
    rewrite IH by exact Hocc. reflexivity.
Qed.

(** A hostname of two dot-free segments and a remainder splits into the
    two segments and the pieces of the remainder. *)
Lemma strings_Split_two (a b rest : string) :
  occurrences "." a = 0%nat →
  occurrences "." b = 0%nat →
  strings_Split (a +:+ String "." (b +:+ String "." rest)) "." =
  a :: b :: strings_Split rest ".".
Proof.
  intros Ha Hb. rewrite strings_Split_cons by exact Ha.
  rewrite strings_Split_cons by exact Hb. reflexivity.
Qed.

Lemma strings_Split_pieces (s : string) (sep : ascii) :
  Forall (λ piece, occurrences sep piece = 0%nat) (strings_Split s sep).
Proof.
  induction s as [|c s IH]; cbn [strings_Split].
  - repeat constructor.
  - destruct (Ascii.eqb c sep) eqn:Hc.
    + constructor; [reflexivity|exact IH].
    + destruct (strings_Split s sep) as [|p ps]; [repeat constructor;
        cbn [occurrences]; rewrite Hc; reflexivity|].
      inversion IH as [|? ? Hp Hps]; subst.
      constructor; [|exact Hps].
      cbn [occurrences]. rewrite Hc, Hp. reflexivity.
Qed.

(** X14: the pieces [strings.Split] cuts a string into give the string
    back when joined with the separator, and none of them contains the
    separator: the segments of a hostname are its dot-free stretches. *)
Theorem strings_Join_Split (s : string) (sep : ascii) :
  strings_Join (strings_Split s sep) (String sep "") = s ∧
  Forall (λ piece, occurrences sep piece = 0%nat) (strings_Split s sep).
Proof.
  split; [|apply strings_Split_pieces].
  induction s as [|c s IH]; [reflexivity|].
  cbn [strings_Split].
  pose proof (strings_Split_nonempty s sep) as Hne.
  destruct (Ascii.eqb_spec c sep) as [->|Hc].
  - destruct (strings_Split s sep) as [|p ps]; [congruence|].
    change (strings_Join ("" :: p :: ps) (String sep ""))
      with (String sep (strings_Join (p :: ps) (String sep ""))).
    rewrite IH. reflexivity.
  - destruct (strings_Split s sep) as [|p ps]; [congruence|].
    destruct ps as [|q qs].
    + cbn [strings_Join] in *. rewrite IH. reflexivity.
    + change (strings_Join (String c p :: q :: qs) (String sep ""))
        with (String c (strings_Join (p :: q :: qs) (String sep ""))).
      rewrite IH. reflexivity.
Qed.

(** ** Extraction *)

Lemma length_zero_eqb (s : string) :
  (String.length s =? 0)%nat = String.eqb s "".
Proof. destruct s; reflexivity. Qed.

Lemma length_pos_eqb (s : string) :
  (0 <? String.length s)%nat = negb (String.eqb s "").
Proof. destruct s; reflexivity. Qed.

Lemma collect_managed (args : PilotArgs) (c : Certificate)
    (secretNames dnsNames namespaces : list string) :
  collect args (secretNames, dnsNames, namespaces) c =
  if managed c
  then ((secretNames ++ [SecretName c])%list,
        (dnsNames ++ [joinedNames c])%list,
        (namespaces ++ [Namespace args])%list)
  else (secretNames, dnsNames, namespaces).
Proof.
  unfold collect, managed, joinedNames.
  rewrite length_zero_eqb, length_pos_eqb.
  destruct (String.eqb (strings_Join (DnsNames c) ",") ""); [reflexivity|].
  destruct (String.eqb (SecretName c) ""); reflexivity.
Qed.

Lemma collect_fold (args : PilotArgs) (certs : list Certificate)
    (secretNames dnsNames namespaces : list string) :
  fold_left (collect args) certs (secretNames, dnsNames, namespaces) =
  ((secretNames ++
      map req_secretName (extraction_spec (Namespace args) certs))%list,
   (dnsNames ++
      map req_dnsNames (extraction_spec (Namespace args) certs))%list,
   (namespaces ++
      map req_namespace (extraction_spec (Namespace args) certs))%list).
Proof.
  revert secretNames dnsNames namespaces.
  induction certs as [|c certs IH]; intros secretNames dnsNames namespaces.
  - cbn. rewrite !app_nil_r. reflexivity.
  - cbn [fold_left]. rewrite collect_managed.
    unfold extraction_spec in *. cbn [List.filter].
    destruct (managed c).
    + rewrite IH. cbn [map request_of req_secretName req_dnsNames
                         req_namespace].
      rewrite <- !app_assoc. reflexivity.
    + apply IH.
Qed.

(** C5: for every certificate-config list and caller namespace the loop
    yields, slice by slice, exactly the requests of the configurations with
    a non-empty joined DNS name and a non-empty secret name, in input
    order and in the caller's namespace; the others are left out.  The
    loop is a total function: it has no failure. *)
Theorem extract_refines_spec (args : PilotArgs) (certs : list Certificate) :
  extract args certs =
  (map req_secretName (extraction_spec (Namespace args) certs),
   map req_dnsNames (extraction_spec (Namespace args) certs),
   map req_namespace (extraction_spec (Namespace args) certs)).
Proof.
  unfold extract. rewrite collect_fold. reflexivity.
Qed.

(** The two examples of the design. *)
Example extract_drops_empty_dns :
  extract {| Namespace := "ns1" |}
    [ {| SecretName := "cert-a"; DnsNames := ["svc.a"] |};
      {| SecretName := "cert-b"; DnsNames := [] |} ]
  = (["cert-a"], ["svc.a"], ["ns1"]).
Proof. reflexivity. Qed.

Example extract_drops_missing_secret :
  extract {| Namespace := "ns1" |}
    [ {| SecretName := ""; DnsNames := ["svc.c"] |} ]
  = ([], [], []).
Proof. reflexivity. Qed.

(** The joined DNS name is empty only for a configuration without DNS
    name or with the empty string as its one DNS name. *)
Lemma joinedNames_empty (c : Certificate) :
  joinedNames c = "" ↔ DnsNames c = [] ∨ DnsNames c = [""].
Proof.
  unfold joinedNames. destruct (DnsNames c) as [|e [|e' rest]].
  - split; [left; reflexivity|reflexivity].
  - cbn [strings_Join]. split.
    + intros ->. right. reflexivity.
    + intros [Hnil|Hone]; [discriminate Hnil|congruence].
  - cbn [strings_Join]. split.
    + destruct e; discriminate.
    + intros [Hnil|Hone]; [discriminate Hnil|discriminate Hone].
Qed.

Lemma managed_false (c : Certificate) :
  managed c = false ↔
  DnsNames c = [] ∨ DnsNames c = [""] ∨ SecretName c = "".
Proof.
  pose proof (joinedNames_empty c) as Hempty. unfold managed.
  destruct (String.eqb_spec (joinedNames c) "") as [Hj|Hj];
    destruct (String.eqb_spec (SecretName c) "") as [Hs|Hs];
    cbn [negb andb]; split; intros H; try reflexivity; try tauto.
  discriminate H.
Qed.

(** X11: one round of the loop leaves the slices as they are exactly for a
    configuration without DNS name, with the empty string as its one DNS
    name, or with an empty secret name.  Two or more DNS names always
    count as a DNS name, even when all are empty. *)
Theorem collect_skips_iff (args : PilotArgs) (c : Certificate)
    (secretNames dnsNames namespaces : list string) :
  collect args (secretNames, dnsNames, namespaces) c
    = (secretNames, dnsNames, namespaces) ↔
  DnsNames c = [] ∨ DnsNames c = [""] ∨ SecretName c = "".
Proof.
  rewrite collect_managed, <- managed_false.
  destruct (managed c); split; intros H; try reflexivity; try discriminate H.
  exfalso. injection H as H _ _.
  apply (f_equal length) in H. rewrite length_app in H. cbn in H. lia.
Qed.

(** X12: the loop over two lists in a row appends what it yields on each. *)
Theorem extract_app (args : PilotArgs) (certs1 certs2 : list Certificate) :
  extract args (certs1 ++ certs2) =
  let '(secretNames1, dnsNames1, namespaces1) := extract args certs1 in
  let '(secretNames2, dnsNames2, namespaces2) := extract args certs2 in
  ((secretNames1 ++ secretNames2)%list, (dnsNames1 ++ dnsNames2)%list,
   (namespaces1 ++ namespaces2)%list).
Proof.
  unfold extract. rewrite !collect_fold. cbn [app].
  unfold extraction_spec. rewrite List.filter_app, !map_app. reflexivity.
Qed.

(** What the loop keeps: the three slices have one length, at most the
    number of configurations; no secret name and no DNS name in them is
    empty, and every namespace is the caller's. *)
Lemma extract_wellformed (args : PilotArgs) (certs : list Certificate)
    (secretNames dnsNames namespaces : list string) :
  extract args certs = (secretNames, dnsNames, namespaces) →
  length secretNames = length dnsNames ∧
  length dnsNames = length namespaces ∧
  (length secretNames ≤ length certs)%nat ∧
  Forall (λ name, name ≠ "") secretNames ∧
  Forall (λ name, name ≠ "") dnsNames ∧
  Forall (λ ns, ns = Namespace args) namespaces.
Proof.
  unfold extract. rewrite collect_fold. cbn [app].
  intros [= <- <- <-]. unfold extraction_spec.
  rewrite !length_map. repeat split.
  - apply List.filter_length_le.
  - rewrite map_map. apply Forall_map, Forall_forall.
    intros c Hc. apply list_elem_of_In, List.filter_In in Hc as [_ Hc].
    cbn [request_of req_secretName].
    unfold managed in Hc. apply andb_true_iff in Hc as [_ Hs].
    destruct (String.eqb_spec (SecretName c) ""); [discriminate Hs|assumption].
  - rewrite map_map. apply Forall_map, Forall_forall.
    intros c Hc. apply list_elem_of_In, List.filter_In in Hc as [_ Hc].
    cbn [request_of req_dnsNames].
    unfold managed in Hc. apply andb_true_iff in Hc as [Hj _].
    destruct (String.eqb_spec (joinedNames c) ""); [discriminate Hj|assumption].
  - rewrite map_map. apply Forall_map, Forall_forall. reflexivity.
Qed.

(** ** The name list *)

(** C2: the names of the certificate are the hostname, followed by
    [istiod.istio-system.svc] when the hostname is the legacy
    [istio-pilot.istio-system.svc], by the legacy name when the hostname
    is [istiod.istio-system.svc], and by nothing for any other hostname. *)
Theorem dnsCertNames_cases (hostname : string) :
  (hostname = "istio-pilot.istio-system.svc" →
     dnsCertNames hostname =
     ["istio-pilot.istio-system.svc"; "istiod.istio-system.svc"]) ∧
  (hostname = "istiod.istio-system.svc" →
     dnsCertNames hostname =
     ["istiod.istio-system.svc"; "istio-pilot.istio-system.svc"]) ∧
  (hostname ≠ "istio-pilot.istio-system.svc" →
   hostname ≠ "istiod.istio-system.svc" →
     dnsCertNames hostname = [hostname]).
Proof.
  repeat split.
  - intros ->. reflexivity.
  - intros ->. reflexivity.
  - intros Hpilot Histiod. unfold dnsCertNames.
    destruct (String.eqb_spec hostname "istio-pilot.istio-system.svc");
      [contradiction|].
    destruct (String.eqb_spec hostname "istiod.istio-system.svc");
      [contradiction|].
    reflexivity.
Qed.

Lemma dnsCertNames_cases_witness :
  dnsCertNames "istiod.istio-system.svc" =
    ["istiod.istio-system.svc"; "istio-pilot.istio-system.svc"] ∧
  dnsCertNames "pilot.ns" = ["pilot.ns"].
Proof.
  split.
  - apply (proj1 (proj2 (dnsCertNames_cases "istiod.istio-system.svc"))).
    reflexivity.
  - apply (proj2 (proj2 (dnsCertNames_cases "pilot.ns"))); discriminate.
Defined.

(** The hostname is always the first name. *)
Lemma dnsCertNames_head (hostname : string) :
  ∃ alternates, dnsCertNames hostname = hostname :: alternates.
Proof.
  unfold dnsCertNames.
  destruct (String.eqb hostname "istio-pilot.istio-system.svc"),
           (String.eqb hostname "istiod.istio-system.svc");
    cbn [app]; eauto.
Qed.

Lemma dnsCertNames_elem (hostname other : string) :
  other ∈ dnsCertNames hostname ↔
  other = hostname ∨
  (hostname = "istio-pilot.istio-system.svc" ∧
   other = "istiod.istio-system.svc") ∨
  (hostname = "istiod.istio-system.svc" ∧
   other = "istio-pilot.istio-system.svc").
Proof.
  unfold dnsCertNames.
  destruct (String.eqb_spec hostname "istio-pilot.istio-system.svc");
    destruct (String.eqb_spec hostname "istiod.istio-system.svc");
    cbn [app]; rewrite ?elem_of_cons, ?elem_of_nil;
    intuition congruence.
Qed.

(** X13: the names of a certificate are never repeated, and aliasing goes both
    ways: a name on the certificate of [hostname] has [hostname] on its
    own certificate. *)
Theorem dnsCertNames_aliases (hostname : string) :
  NoDup (dnsCertNames hostname) ∧
  ∀ other, other ∈ dnsCertNames hostname → hostname ∈ dnsCertNames other.
Proof.
  split.
  - unfold dnsCertNames.
    destruct (String.eqb_spec hostname "istio-pilot.istio-system.svc");
      destruct (String.eqb_spec hostname "istiod.istio-system.svc");
      subst; cbn [app]; try discriminate;
      repeat constructor; rewrite ?elem_of_cons, ?elem_of_nil;
      intuition discriminate.
  - intros other. rewrite !dnsCertNames_elem. intuition congruence.
Qed.

Lemma dnsCertNames_aliases_witness :
  NoDup (dnsCertNames "istiod.istio-system.svc") ∧
  "istiod.istio-system.svc" ∈ dnsCertNames "istio-pilot.istio-system.svc".
Proof.
  split.
  - exact (proj1 (dnsCertNames_aliases "istiod.istio-system.svc")).
  - apply (proj2 (dnsCertNames_aliases "istiod.istio-system.svc")).
    apply list_elem_of_In. vm_compute. right. left. reflexivity.
Defined.

(** ** The self certificate *)

(** The fixed paths, once [path.Join] has cleaned them. *)
Example dnsKeyFile_value : dnsKeyFile = "var/run/secrets/istio-dns/key.pem".
Proof. reflexivity. Qed.

Example dnsCertFile_value :
  dnsCertFile = "var/run/secrets/istio-dns/cert-chain.pem".
Proof. reflexivity. Qed.

Example ownerReadWrite_value : ownerReadWrite = octal [6; 0; 0].
Proof. reflexivity. Qed.

Arguments dnsKeyFile : simpl never.
Arguments dnsCertFile : simpl never.
Arguments dnsCertDir : simpl never.
Arguments octal : simpl never.
Arguments invalidHostname : simpl never.
Arguments dnsCertNames : simpl never.
Arguments strings_Split : simpl never.
Arguments strings_Join : simpl never.

Lemma key_cert_paths_differ : dnsKeyFile ≠ dnsCertFile.
Proof. vm_compute. discriminate. Qed.

Section Runs.
Context {W Client Ctl : Type}.
Variable env : Env W Client Ctl.
Implicit Types (st : State W Client Ctl) (hostname : string).

Ltac reduce :=
  cbn [bind self extern ret index fst snd server world trace].

Ltac answer :=
  match goal with
  | |- context [os_Stat env ?n ?w0] =>
      destruct (os_Stat env n w0) as [[?e|] ?w] eqn:?
  | |- context [chiron_GenKeyCertK8sCA env ?c ?d ?s ?n ?p ?w0] =>
      destruct (chiron_GenKeyCertK8sCA env c d s n p w0)
        as [[[[?chain ?key] ?ca] [?e|]] ?w] eqn:?
  | |- context [os_MkdirAll env ?d ?p ?w0] =>
      destruct (os_MkdirAll env d p w0) as [[?e|] ?w] eqn:?
  | |- context [ioutil_WriteFile env ?f ?d ?p ?w0] =>
      destruct (ioutil_WriteFile env f d p w0) as [[?e|] ?w] eqn:?
  end;
  reduce.

Ltac new_calls :=
  rewrite <- ?app_assoc; rewrite ?drop_app_length, ?drop_all; cbn [app].

(** Runs [initDNSCerts] symbolically: one goal per path through it. *)
Ltac run_initDNSCerts hostname :=
  unfold calls, initDNSCerts; reduce;
  answer;
  [ let Hlen := fresh "Hlen" in
    let Hne := fresh "Hne" in
    let Hparts := fresh "Hparts" in
    destruct (length (strings_Split hostname ".") <? 2)%nat eqn:Hlen;
    reduce;
    [ | pose proof (strings_Split_nonempty hostname ".") as Hne;
        destruct (strings_Split hostname ".") as [|?part0 [|?part1 ?rest]]
          eqn:Hparts;
        [ congruence | discriminate Hlen | ];
        clear Hne;
        match type of Hparts with
        | _ = ?p0 :: ?p1 :: ?ps =>
            change ((p0 :: p1 :: ps) !! 0%nat) with (Some p0);
            change ((p0 :: p1 :: ps) !! 1%nat) with (Some p1)
        end;
        reduce;
        answer; [ | answer; [ | answer; [ | answer ] ] ] ]
  | ];
  new_calls.

Lemma initDNSCerts_skip hostname st w' :
  os_Stat env dnsKeyFile (world st) = (None, w') →
  initDNSCerts env hostname st =
  (Val None,
   {| server := server st; world := w';
      trace := (trace st ++ [Ev_Stat dnsKeyFile None])%list |}).
Proof.
  intros HStat. unfold initDNSCerts. reduce. rewrite HStat. reflexivity.
Qed.

(** X1: [initDNSCerts] never indexes [parts] out of range: whatever the
    hostname and the world, it returns a value and does not panic. *)
Lemma initDNSCerts_returns hostname st :
  ∃ err, fst (initDNSCerts env hostname st) = Val err.
Proof.
  run_initDNSCerts hostname; eauto.
Qed.

(** X8: [initDNSCerts] only reads its receiver: the server, its rotation
    controller and its startup hooks are after the call what they were
    before. *)
Lemma initDNSCerts_server hostname st :
  server (snd (initDNSCerts env hostname st)) = server st.
Proof.
  run_initDNSCerts hostname; reflexivity.
Qed.

(** C4: when [os.Stat] finds the key file at its fixed path, then for
    every hostname the method returns [nil], and its only external call
    is that [os.Stat]: the signing backend is not called, no directory
    is made and no file is written; the world is as [os.Stat] left it. *)
Theorem initDNSCerts_existing_key_skips hostname st w' :
  os_Stat env dnsKeyFile (world st) = (None, w') →
  fst (initDNSCerts env hostname st) = Val None ∧
  calls (initDNSCerts env hostname) st = [Ev_Stat dnsKeyFile None] ∧
  Forall quiet (calls (initDNSCerts env hostname) st) ∧
  world (snd (initDNSCerts env hostname st)) = w' ∧
  server (snd (initDNSCerts env hostname st)) = server st.
Proof.
  intros HStat. unfold calls.
  rewrite (initDNSCerts_skip hostname st w' HStat).
  cbn [fst snd trace world server]. rewrite drop_app_length.
  repeat split. repeat constructor.
Qed.

(** C9: the test for an existing key file comes before the hostname is
    looked at.  When [os.Stat] finds the key file, every hostname, one
    with fewer than two dot-separated segments included, gets [nil] and
    not the invalid-hostname error, and nothing but [os.Stat] is
    called. *)
Theorem initDNSCerts_skip_precedes_validation hostname st w' :
  os_Stat env dnsKeyFile (world st) = (None, w') →
  fst (initDNSCerts env hostname st) = Val None ∧
  fst (initDNSCerts env hostname st) ≠ Val (Some (invalidHostname hostname)) ∧
  ∀ e, e ∈ calls (initDNSCerts env hostname) st →
       e = Ev_Stat dnsKeyFile None.
Proof.
  intros HStat. unfold calls.
  rewrite (initDNSCerts_skip hostname st w' HStat).
  cbn [fst snd trace]. rewrite drop_app_length.
  split; [reflexivity|]. split; [discriminate|].
  intros e He. apply list_elem_of_singleton in He. exact He.
Qed.

(** C3, amended: when [os.Stat] does not find the key file, a hostname
    with fewer than two dot-separated segments gets the invalid-hostname
    error; the signing backend is not called and nothing is written. *)
Theorem initDNSCerts_invalid_hostname hostname st e0 w1 :
  (length (strings_Split hostname ".") < 2)%nat →
  os_Stat env dnsKeyFile (world st) = (Some e0, w1) →
  fst (initDNSCerts env hostname st) = Val (Some (invalidHostname hostname)) ∧
  calls (initDNSCerts env hostname) st = [Ev_Stat dnsKeyFile (Some e0)] ∧
  Forall quiet (calls (initDNSCerts env hostname) st) ∧
  world (snd (initDNSCerts env hostname st)) = w1.
Proof.
  intros Hlen HStat. apply Nat.ltb_lt in Hlen.
  unfold calls, initDNSCerts. reduce. rewrite HStat. reduce.
  rewrite Hlen. reduce. rewrite drop_app_length.
  repeat split. repeat constructor.
Qed.

(** C10: for a hostname of at least two segments, the signing request
    names the comma-joined name list, which starts with the hostname;
    its CSR identifier is the first segment followed by [.csr.secret]
    and its namespace is the second segment, whatever the segments after
    them; it is checked against the default CA certificate, and it is
    the only signing request. *)
Theorem initDNSCerts_signing_request hostname st part0 part1 rest e0 w1 :
  strings_Split hostname "." = part0 :: part1 :: rest →
  os_Stat env dnsKeyFile (world st) = (Some e0, w1) →
  ∃ alternates certChain keyPEM err later,
    dnsCertNames hostname = hostname :: alternates ∧
    calls (initDNSCerts env hostname) st =
      Ev_Stat dnsKeyFile (Some e0) ::
      Ev_GenKeyCertK8sCA (strings_Join (hostname :: alternates) ",")
        (part0 +:+ ".csr.secret") part1 defaultCACertPath
        certChain keyPEM err :: later ∧
    Forall (λ e, is_signing e = false) later.
Proof.
  intros Hparts HStat.
  destruct (dnsCertNames_head hostname) as [alternates Hnames].
  exists alternates. rewrite <- Hnames. revert Hparts HStat.
  run_initDNSCerts hostname; intros Hsplit HStat;
    try discriminate HStat;
    try (rewrite Hsplit in *; cbn in *; discriminate);
    injection Hsplit as -> -> ->; injection HStat as -> ->;
    do 4 eexists; (split; [reflexivity|]);
    (split; [reflexivity|]); repeat constructor.
Qed.

(** C6: the key file is written before the certificate-chain file.
    Whenever the certificate-chain file is written, the calls before it
    were a signing request, the making of the directory and the write of
    the key file, all without error, and the method returns what that
    last write answered.  So when the write of the chain fails, its error
    is the result, and no call follows it: nothing removes the key file
    already written. *)
Theorem initDNSCerts_key_before_chain hostname st data perm err :
  Ev_WriteFile dnsCertFile data perm err
    ∈ calls (initDNSCerts env hostname) st →
  fst (initDNSCerts env hostname st) = Val err ∧
  ∃ e0 names csr namespace keyPEM,
    calls (initDNSCerts env hostname) st =
      [ Ev_Stat dnsKeyFile (Some e0);
        Ev_GenKeyCertK8sCA names csr namespace defaultCACertPath
          data keyPEM None;
        Ev_MkdirAll dnsCertDir (octal [6; 0; 0]) None;
        Ev_WriteFile dnsKeyFile keyPEM (octal [6; 0; 0]) None;
        Ev_WriteFile dnsCertFile data perm err ].
Proof.
  pose proof key_cert_paths_differ as Hdiff.
  run_initDNSCerts hostname; intros HIn;
    repeat (apply elem_of_cons in HIn as [HIn|HIn]; [try discriminate HIn|]);
    try (apply elem_of_nil in HIn; contradiction);
    try (injection HIn as HIn _ _ _; symmetry in HIn; contradiction);
    injection HIn as -> -> ->;
    (split; [reflexivity|]); do 5 eexists; reflexivity.
Qed.


(** *** Failures and what the method never does *)

Ltac pick_call HIn :=
  repeat (apply elem_of_cons in HIn as [HIn|HIn]; [try discriminate HIn|]);
  try (apply elem_of_nil in HIn; contradiction).

(** X2: when the signing request fails, the method returns the error of the
    backend as it is, and it has called nothing but [os.Stat] and the
    backend: no directory is made and no file written. *)
Theorem initDNSCerts_signing_fails hostname st
    names csr namespace caPath certChain keyPEM e :
  Ev_GenKeyCertK8sCA names csr namespace caPath certChain keyPEM (Some e)
    ∈ calls (initDNSCerts env hostname) st →
  fst (initDNSCerts env hostname st) = Val (Some e) ∧
  ∃ e0,
    calls (initDNSCerts env hostname) st =
      [ Ev_Stat dnsKeyFile (Some e0);
        Ev_GenKeyCertK8sCA names csr namespace caPath certChain keyPEM
          (Some e) ].
Proof.
  run_initDNSCerts hostname; intros HIn; pick_call HIn.
  injection HIn as -> -> -> -> -> -> ->.
  split; [reflexivity|]. eexists. reflexivity.
Qed.

(** X3: when the certificate directory cannot be made, the method returns
    that error and writes no file. *)
Theorem initDNSCerts_mkdir_fails hostname st path perm e :
  Ev_MkdirAll path perm (Some e) ∈ calls (initDNSCerts env hostname) st →
  fst (initDNSCerts env hostname st) = Val (Some e) ∧
  Forall (λ ev, is_file_write ev = false) (calls (initDNSCerts env hostname) st).
Proof.
  run_initDNSCerts hostname; intros HIn; pick_call HIn.
  injection HIn as -> -> ->.
  split; [reflexivity|]. repeat constructor.
Qed.

(** X4: when the key file cannot be written, the method returns that error
    and does not go on to write the certificate chain. *)
Theorem initDNSCerts_key_write_fails hostname st data perm e :
  Ev_WriteFile dnsKeyFile data perm (Some e)
    ∈ calls (initDNSCerts env hostname) st →
  fst (initDNSCerts env hostname st) = Val (Some e) ∧
  ∀ written mode answer,
    Ev_WriteFile dnsCertFile written mode answer
      ∉ calls (initDNSCerts env hostname) st.
Proof.
  pose proof key_cert_paths_differ as Hdiff.
  run_initDNSCerts hostname; intros HIn; pick_call HIn;
    try (injection HIn as HIn _ _ _; contradiction).
  injection HIn as -> -> ->.
  split; [reflexivity|].
  intros written mode answer HIn. pick_call HIn.
Qed.

(** X5: whatever the hostname and whatever the world answers, the method
    looks up nothing but the key file, has certificates checked against
    nothing but the default CA certificate, and writes nowhere but to the
    certificate directory and the two files in it, always with mode
    [0600]; it never constructs a controller. *)
Theorem initDNSCerts_calls_confined hostname st :
  Forall confined (calls (initDNSCerts env hostname) st).
Proof.
  run_initDNSCerts hostname;
    repeat apply Forall_cons_2; try apply Forall_nil;
    cbn [confined]; auto.
Qed.

(** X6: when no key file is found, a signing request is issued exactly for
    the hostnames that contain a dot; segments may be empty. *)
Theorem initDNSCerts_signs_iff_dot hostname st e0 w1 :
  os_Stat env dnsKeyFile (world st) = (Some e0, w1) →
  (∃ e, e ∈ calls (initDNSCerts env hostname) st ∧ is_signing e = true) ↔
  occurrences "." hostname ≠ 0%nat.
Proof.
  pose proof (strings_Split_length hostname ".") as Hsegments.
  revert Hsegments.
  run_initDNSCerts hostname; intros Hsegments HStat;
    try discriminate HStat.
  - apply Nat.ltb_lt in Hlen. split.
    + intros (e' & HIn & Hsig). pick_call HIn. subst e'. discriminate Hsig.
    + intros Hdot. lia.
  - split; [intros _; cbn [length] in Hsegments; lia|].
    intros _. eexists. split; [apply elem_of_cons; right;
      apply elem_of_cons; left; reflexivity|reflexivity].
  - split; [intros _; cbn [length] in Hsegments; lia|].
    intros _. eexists. split; [apply elem_of_cons; right;
      apply elem_of_cons; left; reflexivity|reflexivity].
  - split; [intros _; cbn [length] in Hsegments; lia|].
    intros _. eexists. split; [apply elem_of_cons; right;
      apply elem_of_cons; left; reflexivity|reflexivity].
  - split; [intros _; cbn [length] in Hsegments; lia|].
    intros _. eexists. split; [apply elem_of_cons; right;
      apply elem_of_cons; left; reflexivity|reflexivity].
  - split; [intros _; cbn [length] in Hsegments; lia|].
    intros _. eexists. split; [apply elem_of_cons; right;
      apply elem_of_cons; left; reflexivity|reflexivity].
Qed.

(** X7: provisioning is idempotent on a file system where a file written can
    be found afterwards and stays found through later look-ups and
    writes: once the method has returned [nil], running it again, for any
    hostname, only looks up the key file and returns [nil]. *)
Theorem initDNSCerts_again_skips hostname hostname' st :
  (∀ f d p w w', ioutil_WriteFile env f d p w = (None, w') → found env f w') →
  (∀ f g d p w, found env f w →
     found env f (snd (ioutil_WriteFile env g d p w))) →
  (∀ f g w, found env f w → found env f (snd (os_Stat env g w))) →
  fst (initDNSCerts env hostname st) = Val None →
  fst (initDNSCerts env hostname' (snd (initDNSCerts env hostname st)))
    = Val None ∧
  calls (initDNSCerts env hostname') (snd (initDNSCerts env hostname st))
    = [Ev_Stat dnsKeyFile None].
Proof.
  intros Hwritten Hwrite Hstat Hres.
  assert (Hfound :
    found env dnsKeyFile (world (snd (initDNSCerts env hostname st)))).
  { revert Hres.
    run_initDNSCerts hostname; intros Hres; try discriminate Hres.
    - match goal with
      | Hkey : ioutil_WriteFile env dnsKeyFile _ _ _ = (None, _),
        Hchain : ioutil_WriteFile env dnsCertFile _ _ _ = (None, _) |- _ =>
          apply Hwritten in Hkey;
          eapply Hwrite in Hkey; rewrite Hchain in Hkey; exact Hkey
      end.
    - match goal with
      | Hkey : os_Stat env dnsKeyFile (world st) = (None, ?w) |- _ =>
          assert (Hbefore : found env dnsKeyFile (world st))
            by (unfold found; rewrite Hkey; reflexivity);
          eapply Hstat in Hbefore; rewrite Hkey in Hbefore; exact Hbefore
      end. }
  unfold found in Hfound.
  destruct (os_Stat env dnsKeyFile
              (world (snd (initDNSCerts env hostname st))))
    as [r w'] eqn:Hagain.
  cbn [fst] in Hfound. subst r. unfold calls.
  rewrite (initDNSCerts_skip hostname' _ w' Hagain).
  cbn [fst snd trace]. rewrite drop_app_length. split; reflexivity.
Qed.

(** ** The rotation controller *)

Implicit Types (args : PilotArgs).

Ltac run_initCertController st :=
  unfold calls, initCertController; reduce;
  destruct (Certificates (Mesh (environment (server st)))) as [|?c ?certs];
  cbn [length Nat.eqb]; reduce;
  [ | destruct (extract _ _) as [[?secretNames ?dnsNames] ?namespaces];
      reduce;
      match goal with
      | |- context [chiron_NewWebhookController env ?r ?g ?c ?p ?a ?b ?n ?w0] =>
          destruct (chiron_NewWebhookController env r g c p a b n w0)
            as [[?ctl [?e|]] ?w] eqn:?
      end;
      cbn [bind self extern ret set_certController addStartFunc fst snd
           server world trace certController startFuncs] ];
  new_calls.

(** C1, amended: with no certificate configuration the method returns
    [nil] and changes nothing: no controller is constructed, no startup
    hook is registered.  With at least one configuration the controller
    constructor is called once, on the extracted slices, even when every
    entry was left out and the slices are empty; what it answers becomes
    [s.certController], and the startup hook is registered exactly when
    it answers no error. *)
Theorem initCertController_construction args st :
  (Certificates (Mesh (environment (server st))) = [] →
     initCertController env args st = (Val None, st)) ∧
  (Certificates (Mesh (environment (server st))) ≠ [] →
     let '(secretNames, dnsNames, namespaces) :=
       extract args (Certificates (Mesh (environment (server st)))) in
     let st' := snd (initCertController env args st) in
     ∃ ctl err w',
       chiron_NewWebhookController env defaultCertGracePeriodRatio
         defaultMinCertGracePeriod (kubeClient (server st))
         defaultCACertPath secretNames dnsNames namespaces (world st)
         = ((ctl, err), w') ∧
       calls (initCertController env args) st =
         [Ev_NewWebhookController defaultCertGracePeriodRatio
            defaultMinCertGracePeriod defaultCACertPath
            secretNames dnsNames namespaces err] ∧
       certController (server st') = ctl ∧
       startFuncs (server st') =
         (startFuncs (server st) ++
            match err with None => [RunCertController] | Some _ => [] end)%list ∧
       fst (initCertController env args st) =
         Val (match err with
              | None => None
              | Some e =>
                  Some ("failed to create certificate controller: " +:+ e)
              end)).
Proof.
  split.
  - intros Hnil. unfold initCertController. reduce. rewrite Hnil.
    reflexivity.
  - run_initCertController st; intros Hne; try congruence;
      do 3 eexists; (split; [reflexivity|]); cbn [snd];
      rewrite ?app_nil_r; repeat split; reflexivity.
Qed.

(** C8: every construction of the rotation controller is given the
    grace-period ratio one half, the minimum grace period of ten
    minutes and the service-account CA certificate path, whatever the
    configuration, the arguments and the state of the server. *)
Theorem initCertController_fixed_policy args st
    ratio grace caPath secretNames dnsNames namespaces err :
  Ev_NewWebhookController ratio grace caPath secretNames dnsNames namespaces
      err ∈ calls (initCertController env args) st →
  ratio = 1 # 2 ∧
  grace = 10 * (60 * 1000000000) ∧
  caPath = "/var/run/secrets/kubernetes.io/serviceaccount/ca.crt".
Proof.
  run_initCertController st; intros HIn;
    repeat (apply elem_of_cons in HIn as [HIn|HIn]; [|]);
    try (apply elem_of_nil in HIn; contradiction);
    injection HIn as -> -> -> _ _ _ _; repeat split.
Qed.

(** *** The construction call and the server *)

Lemma initCertController_call_slices args st
    ratio grace caPath secretNames dnsNames namespaces err :
  Ev_NewWebhookController ratio grace caPath secretNames dnsNames namespaces
      err ∈ calls (initCertController env args) st →
  extract args (Certificates (Mesh (environment (server st))))
    = (secretNames, dnsNames, namespaces).
Proof.
  unfold calls, initCertController. reduce.
  destruct (Certificates (Mesh (environment (server st)))) as [|c certs].
  - cbn [length Nat.eqb]. reduce. new_calls. intros HIn.
    apply elem_of_nil in HIn. contradiction.
  - cbn [length Nat.eqb].
    destruct (extract args (c :: certs)) as [[secretNames' dnsNames']
                                               namespaces'].
    reduce.
    match goal with
    | |- context [chiron_NewWebhookController env ?r ?g ?k ?p ?a ?b ?n ?w0] =>
        destruct (chiron_NewWebhookController env r g k p a b n w0)
          as [[ctl [e|]] w]
    end;
      cbn [bind self extern ret set_certController addStartFunc fst snd
           server world trace];
      new_calls; intros HIn; pick_call HIn;
      injection HIn as _ _ _ -> -> -> _; reflexivity.
Qed.

(** X9: the slices the controller is constructed on are parallel: they have
    one length, at most the number of configurations; none of the secret
    names and DNS names is empty, and every namespace is [args.Namespace]. *)
Theorem initCertController_parallel_slices args st
    ratio grace caPath secretNames dnsNames namespaces err :
  Ev_NewWebhookController ratio grace caPath secretNames dnsNames namespaces
      err ∈ calls (initCertController env args) st →
  length secretNames = length dnsNames ∧
  length dnsNames = length namespaces ∧
  (length secretNames
     ≤ length (Certificates (Mesh (environment (server st)))))%nat ∧
  Forall (λ name, name ≠ "") secretNames ∧
  Forall (λ name, name ≠ "") dnsNames ∧
  Forall (λ ns, ns = Namespace args) namespaces.
Proof.
  intros HIn. apply initCertController_call_slices in HIn.
  exact (extract_wellformed _ _ _ _ _ HIn).
Qed.


End Runs.

(** ** Concrete runs in the in-memory world *)

Ltac compute_elem :=
  apply list_elem_of_In; vm_compute;
  repeat first [left; reflexivity | right].

Lemma initDNSCerts_existing_key_skips_witness :
  os_Stat memEnv dnsKeyFile (world mountedBoot) = (None, mountedDisk) ∧
  fst (initDNSCerts memEnv "istiod.istio-system.svc" mountedBoot) = Val None ∧
  calls (initDNSCerts memEnv "istiod.istio-system.svc") mountedBoot
    = [Ev_Stat dnsKeyFile None] ∧
  Forall quiet (calls (initDNSCerts memEnv "istiod.istio-system.svc")
                  mountedBoot) ∧
  world (snd (initDNSCerts memEnv "istiod.istio-system.svc" mountedBoot))
    = mountedDisk ∧
  server (snd (initDNSCerts memEnv "istiod.istio-system.svc" mountedBoot))
    = server mountedBoot.
Proof.
  split; [reflexivity|].
  apply (initDNSCerts_existing_key_skips memEnv "istiod.istio-system.svc"
           mountedBoot mountedDisk).
  reflexivity.
Defined.

Lemma initDNSCerts_skip_precedes_validation_witness :
  (length (strings_Split "localhost" ".") < 2)%nat ∧
  fst (initDNSCerts memEnv "localhost" mountedBoot) = Val None ∧
  fst (initDNSCerts memEnv "localhost" mountedBoot)
    ≠ Val (Some (invalidHostname "localhost")) ∧
  ∀ e, e ∈ calls (initDNSCerts memEnv "localhost") mountedBoot →
       e = Ev_Stat dnsKeyFile None.
Proof.
  split; [vm_compute; lia|].
  apply (initDNSCerts_skip_precedes_validation memEnv "localhost"
           mountedBoot mountedDisk).
  reflexivity.
Defined.

(** C3 as stated fails: with the key file mounted, the one-segment
    hostname [localhost] is not refused. *)
Lemma mounted_key_accepts_invalid_hostname :
  ¬ ((length (strings_Split "localhost" ".") < 2)%nat →
     fst (initDNSCerts memEnv "localhost" mountedBoot)
       = Val (Some (invalidHostname "localhost"))).
Proof.
  intros Hclaim.
  assert (Hlen : (length (strings_Split "localhost" ".") < 2)%nat)
    by (vm_compute; lia).
  specialize (Hclaim Hlen). vm_compute in Hclaim. discriminate Hclaim.
Qed.

Lemma initDNSCerts_invalid_hostname_witness :
  fst (initDNSCerts memEnv "localhost" emptyBoot)
    = Val (Some (invalidHostname "localhost")) ∧
  calls (initDNSCerts memEnv "localhost") emptyBoot
    = [Ev_Stat dnsKeyFile (Some noKeyFile)] ∧
  Forall quiet (calls (initDNSCerts memEnv "localhost") emptyBoot) ∧
  world (snd (initDNSCerts memEnv "localhost" emptyBoot)) = emptyDisk.
Proof.
  apply (initDNSCerts_invalid_hostname memEnv "localhost" emptyBoot
           noKeyFile emptyDisk).
  - vm_compute. lia.
  - reflexivity.
Defined.

Lemma initDNSCerts_signing_request_witness :
  ∃ alternates certChain keyPEM err later,
    dnsCertNames "istiod.istio-system.svc"
      = "istiod.istio-system.svc" :: alternates ∧
    calls (initDNSCerts memEnv "istiod.istio-system.svc") emptyBoot =
      Ev_Stat dnsKeyFile (Some noKeyFile) ::
      Ev_GenKeyCertK8sCA
        (strings_Join ("istiod.istio-system.svc" :: alternates) ",")
        ("istiod" +:+ ".csr.secret") "istio-system" defaultCACertPath
        certChain keyPEM err :: later ∧
    Forall (λ e, is_signing e = false) later.
Proof.
  apply (initDNSCerts_signing_request memEnv "istiod.istio-system.svc"
           emptyBoot "istiod" "istio-system" ["svc"] noKeyFile emptyDisk).
  - reflexivity.
  - reflexivity.
Defined.

Lemma initDNSCerts_key_before_chain_witness :
  Ev_WriteFile dnsCertFile (pem "CHAIN") (octal [6; 0; 0]) (Some chainDenied)
    ∈ calls (initDNSCerts memEnv "istiod.istio-system.svc") chainDeniedBoot ∧
  fst (initDNSCerts memEnv "istiod.istio-system.svc" chainDeniedBoot)
    = Val (Some chainDenied) ∧
  ∃ e0 names csr namespace keyPEM,
    calls (initDNSCerts memEnv "istiod.istio-system.svc") chainDeniedBoot =
      [ Ev_Stat dnsKeyFile (Some e0);
        Ev_GenKeyCertK8sCA names csr namespace defaultCACertPath
          (pem "CHAIN") keyPEM None;
        Ev_MkdirAll dnsCertDir (octal [6; 0; 0]) None;
        Ev_WriteFile dnsKeyFile keyPEM (octal [6; 0; 0]) None;
        Ev_WriteFile dnsCertFile (pem "CHAIN") (octal [6; 0; 0])
          (Some chainDenied) ].
Proof.
  assert (Hcall :
    Ev_WriteFile dnsCertFile (pem "CHAIN") (octal [6; 0; 0])
        (Some chainDenied)
      ∈ calls (initDNSCerts memEnv "istiod.istio-system.svc")
          chainDeniedBoot) by compute_elem.
  split; [exact Hcall|].
  exact (initDNSCerts_key_before_chain memEnv "istiod.istio-system.svc"
           chainDeniedBoot _ _ _ Hcall).
Defined.

(** In the in-memory world the key file written before the failed write
    of the chain is still on disk when the method returns. *)
Example initDNSCerts_key_left_in_place :
  let st' := snd (initDNSCerts memEnv "istiod.istio-system.svc"
                    chainDeniedBoot) in
  files (world st') !! dnsKeyFile = Some (File (octal [6; 0; 0]) (pem "KEY")) ∧
  files (world st') !! dnsCertFile = None.
Proof. vm_compute. split; reflexivity. Qed.


(** C1 as stated fails: a configuration without a secret name is left out
    of the request slices, and the controller is constructed and its
    startup hook registered all the same. *)
Lemma initCertController_constructs_for_no_request :
  ¬ (extract {| Namespace := "ns1" |} unmanagedOnly = ([], [], []) →
     List.filter is_construction
       (calls (initCertController memEnv {| Namespace := "ns1" |})
          (boot unmanagedOnly emptyDisk)) = [] ∧
     startFuncs (server (snd (initCertController memEnv
                                {| Namespace := "ns1" |}
                                (boot unmanagedOnly emptyDisk)))) = []).
Proof.
  intros Hclaim. specialize (Hclaim eq_refl).
  destruct Hclaim as [Hcalls _]. vm_compute in Hcalls. discriminate Hcalls.
Qed.

Lemma initCertController_construction_witness :
  initCertController memEnv {| Namespace := "ns1" |} (boot [] emptyDisk)
    = (Val None, boot [] emptyDisk) ∧
  calls (initCertController memEnv {| Namespace := "ns1" |})
    (boot unmanagedOnly emptyDisk) ≠ [].
Proof.
  split.
  - apply (proj1 (initCertController_construction memEnv
                    {| Namespace := "ns1" |} (boot [] emptyDisk))).
    reflexivity.
  - pose proof (proj2 (initCertController_construction memEnv
                         {| Namespace := "ns1" |}
                         (boot unmanagedOnly emptyDisk))) as Hrun.
    assert (Hne : Certificates (Mesh (environment
                    (server (boot unmanagedOnly emptyDisk)))) ≠ [])
      by discriminate.
    specialize (Hrun Hne). cbv beta iota zeta in Hrun.
    change (extract {| Namespace := "ns1" |}
              (Certificates (Mesh (environment
                 (server (boot unmanagedOnly emptyDisk))))))
      with (@nil string, @nil string, @nil string) in Hrun.
    cbv beta iota zeta in Hrun.
    destruct Hrun as (ctl & err & w' & _ & Hcalls & _).
    rewrite Hcalls. discriminate.
Defined.

Lemma initCertController_fixed_policy_witness :
  Ev_NewWebhookController defaultCertGracePeriodRatio
      defaultMinCertGracePeriod defaultCACertPath
      ["cert-a"] ["svc.a"] ["ns1"] None
    ∈ calls (initCertController memEnv {| Namespace := "ns1" |})
        (boot managedAndNot emptyDisk) ∧
  defaultCertGracePeriodRatio = 1 # 2 ∧
  defaultMinCertGracePeriod = 10 * (60 * 1000000000) ∧
  defaultCACertPath = "/var/run/secrets/kubernetes.io/serviceaccount/ca.crt".
Proof.
  assert (Hcall :
    Ev_NewWebhookController defaultCertGracePeriodRatio
        defaultMinCertGracePeriod defaultCACertPath
        ["cert-a"] ["svc.a"] ["ns1"] None
      ∈ calls (initCertController memEnv {| Namespace := "ns1" |})
          (boot managedAndNot emptyDisk)) by compute_elem.
  split; [exact Hcall|].
  exact (initCertController_fixed_policy memEnv {| Namespace := "ns1" |}
           (boot managedAndNot emptyDisk) _ _ _ _ _ _ _ Hcall).
Defined.

(** ** The in-memory world keeps what is written *)

Lemma mem_found (name : string) (w : Mem) :
  found memEnv name w ↔ is_Some (files w !! name).
Proof.
  unfold found. cbn [os_Stat memEnv]. unfold mem_Stat.
  destruct (files w !! name); cbn [fst]; split; intros H;
    try reflexivity; try discriminate H; eauto.
  destruct H as [n Hn]. discriminate Hn.
Qed.

Lemma mem_write_found (f : string) (d : bytes) (p : Z) (w w' : Mem) :
  ioutil_WriteFile memEnv f d p w = (None, w') → found memEnv f w'.
Proof.
  rewrite mem_found. cbn [ioutil_WriteFile memEnv]. unfold mem_WriteFile.
  destruct (decide (f ∈ denied w)); [discriminate|].
  destruct (files w !! f) as [[q old|q]|]; intros [= <-];
    cbn [files mem_put]; rewrite lookup_insert_eq; eauto.
Qed.

Lemma mem_write_keeps (f g : string) (d : bytes) (p : Z) (w : Mem) :
  found memEnv f w → found memEnv f (snd (ioutil_WriteFile memEnv g d p w)).
Proof.
  rewrite !mem_found. cbn [ioutil_WriteFile memEnv]. unfold mem_WriteFile.
  intros Hf.
  destruct (decide (g ∈ denied w)); [exact Hf|].
  destruct (files w !! g) as [[q old|q]|]; cbn [snd files mem_put];
    try exact Hf;
    rewrite lookup_insert; destruct (decide (g = f)); eauto.
Qed.

Lemma mem_stat_keeps (f g : string) (w : Mem) :
  found memEnv f w → found memEnv f (snd (os_Stat memEnv g w)).
Proof.
  cbn [os_Stat memEnv]. unfold mem_Stat.
  destruct (files w !! g); cbn [snd]; intros Hf; exact Hf.
Qed.

(** ** More concrete runs *)

Lemma initDNSCerts_signing_fails_witness :
  fst (initDNSCerts memEnv "pilot.ns" refusingBoot)
    = Val (Some "certificate signing request denied") ∧
  ∃ e0,
    calls (initDNSCerts memEnv "pilot.ns") refusingBoot =
      [ Ev_Stat dnsKeyFile (Some e0);
        Ev_GenKeyCertK8sCA "pilot.ns" "pilot.csr.secret" "ns"
          defaultCACertPath [] []
          (Some "certificate signing request denied") ].
Proof.
  apply (initDNSCerts_signing_fails memEnv "pilot.ns" refusingBoot).
  compute_elem.
Defined.

Lemma initDNSCerts_mkdir_fails_witness :
  fst (initDNSCerts memEnv "pilot.ns" dirDeniedBoot)
    = Val (Some ("mkdir " +:+ dnsCertDir +:+ ": permission denied")) ∧
  Forall (λ ev, is_file_write ev = false)
    (calls (initDNSCerts memEnv "pilot.ns") dirDeniedBoot).
Proof.
  apply (initDNSCerts_mkdir_fails memEnv "pilot.ns" dirDeniedBoot
           dnsCertDir (octal [6; 0; 0])).
  compute_elem.
Defined.

Lemma initDNSCerts_key_write_fails_witness :
  fst (initDNSCerts memEnv "pilot.ns" keyDeniedBoot)
    = Val (Some ("open " +:+ dnsKeyFile +:+ ": permission denied")) ∧
  ∀ written mode answer,
    Ev_WriteFile dnsCertFile written mode answer
      ∉ calls (initDNSCerts memEnv "pilot.ns") keyDeniedBoot.
Proof.
  apply (initDNSCerts_key_write_fails memEnv "pilot.ns" keyDeniedBoot
           (pem "KEY") (octal [6; 0; 0])).
  compute_elem.
Defined.

Lemma initDNSCerts_signs_iff_dot_witness :
  (∃ e, e ∈ calls (initDNSCerts memEnv "pilot.ns") emptyBoot ∧
        is_signing e = true) ↔
  occurrences "." "pilot.ns" ≠ 0%nat.
Proof.
  apply (initDNSCerts_signs_iff_dot memEnv "pilot.ns" emptyBoot
           noKeyFile emptyDisk).
  reflexivity.
Defined.

Lemma initDNSCerts_again_skips_witness :
  fst (initDNSCerts memEnv "localhost"
         (snd (initDNSCerts memEnv "pilot.ns" emptyBoot))) = Val None ∧
  calls (initDNSCerts memEnv "localhost")
    (snd (initDNSCerts memEnv "pilot.ns" emptyBoot))
    = [Ev_Stat dnsKeyFile None].
Proof.
  apply (initDNSCerts_again_skips memEnv "pilot.ns" "localhost" emptyBoot).
  - exact mem_write_found.
  - exact mem_write_keeps.
  - exact mem_stat_keeps.
  - vm_compute. reflexivity.
Defined.

Lemma initCertController_parallel_slices_witness :
  length ["cert-a"] = length ["svc.a"] ∧
  length ["svc.a"] = length ["ns1"] ∧
  (length ["cert-a"] ≤ length managedAndNot)%nat ∧
  Forall (λ name, name ≠ "") ["cert-a"] ∧
  Forall (λ name, name ≠ "") ["svc.a"] ∧
  Forall (λ ns, ns = "ns1") ["ns1"].
Proof.
  apply (initCertController_parallel_slices memEnv {| Namespace := "ns1" |}
           (boot managedAndNot emptyDisk)
           defaultCertGracePeriodRatio defaultMinCertGracePeriod
           defaultCACertPath ["cert-a"] ["svc.a"] ["ns1"] None).
  compute_elem.
Defined.
